(** * Tic-tac-toe game logic: [tic_tac_toe/logic/models.py]

    A shallow embedding of the module's classes [Mark], [Grid], [Move] and
    [GameState], followed by the properties of the specification that were
    checked against it.

    Conventions of the embedding:
    - a Python [str] is a [string]; its characters are the 8-bit ones
      (code points 0 to 255), which covers every character the module
      writes or tests: the space, ["X"], ["O"], ["."], ["?"] and newline;
    - a Python [int] is a [Z];
    - a value whose Python type is not fixed by the code (what [winner]
      returns, what an instance [__dict__] holds) is a [PyVal];
    - a raised exception is the left injection of a sum;
    - the pure bodies of the [cached_property] methods come first; the
      memoising descriptor itself is modelled in module [Memo] over an
      explicit instance dictionary. *)

From Stdlib Require Import ZArith Lia Ascii String.
From stdpp Require Import base strings gmap list.

Local Open Scope string_scope.
Local Open Scope Z_scope.

(** ** Python values and exceptions *)

Inductive Mark : Type := CROSS | NAUGHT.

Inductive PyVal : Type :=
| PyNone
| PyBool (b : bool)
| PyInt (n : Z)
| PyMark (m : Mark)
| PyList (l : list Z).

Inductive Exn : Type :=
| ValueError (msg : string)
| TypeError (msg : string)
| AttributeError (msg : string).

(** [v is None] *)
Definition is_None (v : PyVal) : bool :=
  match v with PyNone => true | _ => false end.

Definition Mark_eqb (a b : Mark) : bool :=
  match a, b with
  | CROSS, CROSS | NAUGHT, NAUGHT => true
  | _, _ => false
  end.

(** [a == b] on the values above; [bool] is a subclass of [int], so
    [True == 1] holds. *)
Definition py_eq (a b : PyVal) : bool :=
  match a, b with
  | PyNone, PyNone => true
  | PyBool x, PyBool y => Bool.eqb x y
  | PyInt x, PyInt y => x =? y
  | PyBool x, PyInt y | PyInt y, PyBool x => (if x then 1 else 0) =? y
  | PyMark x, PyMark y => Mark_eqb x y
  | PyList x, PyList y => bool_decide (x = y)
  | _, _ => false
  end.

(** ** The [str] methods the module calls *)

(** [s.count(sub)] for a one-character [sub], the only use in the module. *)
Fixpoint str_count (sub : ascii) (s : string) : Z :=
  match s with
  | EmptyString => 0
  | String c s' => (if Ascii.eqb c sub then 1 else 0) + str_count sub s'
  end.

(** [s.replace(old, new)] for a one-character [old]. *)
Fixpoint str_replace (old : ascii) (new : string) (s : string) : string :=
  match s with
  | EmptyString => EmptyString
  | String c s' =>
      (if Ascii.eqb c old then new else String c EmptyString)
        +:+ str_replace old new s'
  end.

(** [c * n] *)
Fixpoint str_repeat (c : string) (n : nat) : string :=
  match n with
  | O => EmptyString
  | S n' => c +:+ str_repeat c n'
  end.

(** A [for] loop whose body may [return]: the body answers [Some r] when it
    returns [r] and [None] when it falls through to the next iteration. *)
Fixpoint for_in {A R : Type} (xs : list A) (body : A -> option R) : option R :=
  match xs with
  | [] => None
  | x :: xs' =>
      match body x with
      | Some r => Some r
      | None => for_in xs' body
      end
  end.

(** ** The fragment of [re] the module uses

    Every pattern of the module is a sequence of one-character atoms, an
    atom repeated a fixed number of times, and the two anchors; matching
    such a pattern never backtracks. *)
Module re.

Definition LF : ascii := ascii_of_nat 10.

(** [\s] on [str] patterns: the characters for which [str.isspace] holds. *)
Definition is_space (c : ascii) : bool :=
  let n := nat_of_ascii c in
  ((9 <=? n)%nat && (n <=? 13)%nat)
  || ((28 <=? n)%nat && (n <=? 32)%nat)
  || (n =? 133)%nat || (n =? 160)%nat.

Inductive set_item : Type :=
| SetSpace              (* \s *)
| SetChar (c : ascii).

Inductive atom : Type :=
| Lit (c : ascii)
| Any                   (* .  : any character but a newline *)
| OneOf (items : list set_item).

Inductive node : Type :=
| One (a : atom)
| Repeat (a : atom) (n : nat)   (* a{n} *)
| Bol                   (* ^ *)
| Eol.                  (* $ *)

Definition item_matches (i : set_item) (c : ascii) : bool :=
  match i with
  | SetSpace => is_space c
  | SetChar d => Ascii.eqb c d
  end.

Definition atom_matches (a : atom) (c : ascii) : bool :=
  match a with
  | Lit d => Ascii.eqb c d
  | Any => negb (Ascii.eqb c LF)
  | OneOf items => existsb (fun i => item_matches i c) items
  end.

(** Consume [n] characters that all match [a]. *)
Fixpoint eat (a : atom) (n : nat) (s : string) : option string :=
  match n with
  | O => Some s
  | S n' =>
      match s with
      | String c s' => if atom_matches a c then eat a n' s' else None
      | EmptyString => None
      end
  end.

(** [$] without [re.MULTILINE]: at the end of the string, or just before
    a newline that ends it. *)
Definition at_end (s : string) : bool :=
  match s with
  | EmptyString => true
  | String c EmptyString => Ascii.eqb c LF
  | _ => false
  end.

(** [bol] tells whether the position is still the start of the string. *)
Fixpoint run (r : list node) (bol : bool) (s : string) : bool :=
  match r with
  | [] => true
  | One a :: r' =>
      match eat a 1 s with
      | Some s' => run r' false s'
      | None => false
      end
  | Repeat a n :: r' =>
      match eat a n s with
      | Some s' => run r' (bol && (n =? 0)%nat) s'
      | None => false
      end
  | Bol :: r' => bol && run r' bol s
  | Eol :: r' => at_end s && run r' bol s
  end.

(** Truth value of [re.match(r, s)]: the pattern is tried at the start of
    [s] only, and need not reach its end. *)
Definition match_ (r : list node) (s : string) : bool := run r true s.

(** Compilation of a pattern text made of ["."] and ordinary characters,
    which is what [pattern.replace("?", mark)] produces. *)
Definition compile (p : string) : list node :=
  (fun c => One (if Ascii.eqb c "." then Any else Lit c))
    <$> list_ascii_of_string p.

(** [[m.start() for m in re.finditer(r"\?", s)]], counted from [i]. *)
Fixpoint finditer_starts (c : ascii) (s : string) (i : Z) : list Z :=
  match s with
  | EmptyString => []
  | String d s' =>
      (if Ascii.eqb d c then [i] else []) ++ finditer_starts c s' (i + 1)
  end.

End re.

(** ** [dataclasses.dataclass]

    The decorator takes keyword arguments only, from a fixed list; any other
    keyword makes the call raise [TypeError].  Its result here is the table
    of the parameters in effect. *)
Definition dataclass_defaults : gmap string bool :=
  list_to_map
    [("init", true); ("repr", true); ("eq", true); ("order", false);
     ("unsafe_hash", false); ("frozen", false); ("match_args", true);
     ("kw_only", false); ("slots", false); ("weakref_slot", false)].

Fixpoint dataclass_bind (kwargs : list (string * bool))
    (params : gmap string bool) : Exn + gmap string bool :=
  match kwargs with
  | [] => inr params
  | (k, v) :: rest =>
      match params !! k with
      | Some _ => dataclass_bind rest (<[k := v]> params)
      | None =>
          inl (TypeError
                 ("dataclass() got an unexpected keyword argument '"
                    +:+ k +:+ "'"))
      end
  end.

Definition dataclass (kwargs : list (string * bool)) : Exn + gmap string bool :=
  dataclass_bind kwargs dataclass_defaults.

(** ** Module constants *)

Definition WINNING_PATTERNS : list string :=
  [ "???......";
    "...???...";
    "......???";
    "?..?..?..";
    ".?..?..?.";
    "..?..?..?";
    "?...?...?";
    "..?.?.?.." ].

(** ** [class Mark(enum.StrEnum)] *)

(** The member's value, which is what the member is as a [str]. *)
Definition Mark_value (m : Mark) : string :=
  match m with
  | CROSS => "X"
  | NAUGHT => "O"
  end.

(** [for mark in Mark]: the members in definition order. *)
Definition Mark_members : list Mark := [CROSS; NAUGHT].

(** [Mark.other]: [self == "Mark.NAUGHT"] compares the member, a [str], with
    the eleven-character text. *)
Definition other (self : Mark) : Mark :=
  if String.eqb (Mark_value self) "Mark.NAUGHT" then CROSS else NAUGHT.

(** ** [@dataclass(frozen=True) class Grid] *)

Record Grid : Type := mkGrid { cells : string }.

Definition Grid_decorator : Exn + gmap string bool :=
  dataclass [("frozen", true)].

(** The pattern [r"^[\sXO]{9}$"]. *)
Definition cells_re : list re.node :=
  [re.Bol; re.Repeat (re.OneOf [re.SetSpace; re.SetChar "X"; re.SetChar "O"]) 9;
   re.Eol].

Definition _post_init__ (self : Grid) : Exn + unit :=
  if negb (re.match_ cells_re (cells self))
  then inl (ValueError "Must contain 9 cells of: X, O or space")
  else inr tt.

(** The plain methods of the class body, by name. *)
Definition Grid_methods : gmap string (Grid -> Exn + unit) :=
  {[ "_post_init__" := _post_init__ ]}.

(** The [__init__] that [dataclass] generates: store the fields, then call
    [__post_init__] when the class defines a method of that name. *)
Definition dataclass_init (methods : gmap string (Grid -> Exn + unit))
    (self : Grid) : Exn + Grid :=
  match methods !! "__post_init__" with
  | Some hook =>
      match hook self with
      | inl e => inl e
      | inr _ => inr self
      end
  | None => inr self
  end.

(** [Grid(cells)] *)
Definition Grid_new (cells : string) : Exn + Grid :=
  dataclass_init Grid_methods (mkGrid cells).

(** [Grid()] *)
Definition Grid_default : Exn + Grid := Grid_new (str_repeat " " 9).

Definition x_count (self : Grid) : Z := str_count "X" (cells self).

Definition o_count (self : Grid) : Z := str_count "O" (cells self).

Definition empty_count (self : Grid) : Z := str_count " " (cells self).

(** ** [class GameState]

    The class statement carries no decorator: [GameState] is an ordinary
    class, and an instance gets [grid] by assignment and [starting_mark]
    from the class unless it is assigned too.  The record holds the values
    of the two attributes that the methods read. *)

Record GameState : Type := mkGameState {
  grid : Grid;
  starting_mark : Mark
}.

(** [Mark('X')], the class-level default of [starting_mark]. *)
Definition starting_mark_default : Mark := CROSS.

Definition curr_mark (self : GameState) : Mark :=
  if x_count (grid self) =? o_count (grid self)
  then starting_mark self
  else other (starting_mark self).

Definition game_not_started (self : GameState) : bool :=
  empty_count (grid self) =? 9.

(** The [return []] is a statement of the inner loop's body, after the
    [if]; a function that runs off its end returns [None]. *)
Definition winner (self : GameState) : PyVal :=
  let returned :=
    for_in WINNING_PATTERNS (fun pattern =>
      for_in Mark_members (fun mark =>
        if re.match_
             (re.compile (str_replace "?" (Mark_value mark) pattern))
             (cells (grid self))
        then Some (PyList (re.finditer_starts "?" pattern 0))
        else Some (PyList [])))
  in
  match returned with
  | Some v => v
  | None => PyNone
  end.

Definition tie (self : GameState) : bool :=
  is_None (winner self) && (empty_count (grid self) =? 0).

Definition game_over (self : GameState) : bool :=
  negb (is_None (winner self)) || tie self.

(** ** [@dataclass(Fronzen=True) class Move] *)

(** The fields the class body annotates. *)
Record Move : Type := mkMove {
  mark : Mark;
  cell_index : Z;
  before_state : GameState;
  after_state : GameState
}.

(** The decorator expression of the class statement; the class is bound to
    its name only if this call returns. *)
Definition Move_decorator : Exn + gmap string bool :=
  dataclass [("Fronzen", true)].

(** ** [functools.cached_property] over instance dictionaries

    A [cached_property] looks its name up in the instance's [__dict__];
    when the name is absent it calls the decorated function, stores the
    result under the name and returns it.  Reading an attribute is therefore
    a state transformer on the object. *)
Module Memo.

Definition M (S A : Type) : Type := S -> A * S.

Definition ret {S A : Type} (a : A) : M S A := fun s => (a, s).

Definition bind {S A B : Type} (m : M S A) (k : A -> M S B) : M S B :=
  fun s => let '(a, s') := m s in k a s'.

Notation "'let!' x ':=' m 'in' k" := (bind m (fun x => k))
  (at level 10, x name, m at level 100, k at level 200).

Record GridObj : Type := mkGridObj {
  obj_cells : string;
  grid_dict : gmap string PyVal
}.

Record GameStateObj : Type := mkGameStateObj {
  obj_grid : GridObj;
  obj_starting_mark : Mark;
  state_dict : gmap string PyVal
}.

Definition set_grid_dict (d : gmap string PyVal) (self : GridObj) : GridObj :=
  mkGridObj (obj_cells self) d.

Definition set_state_dict (d : gmap string PyVal) (self : GameStateObj)
  : GameStateObj :=
  mkGameStateObj (obj_grid self) (obj_starting_mark self) d.

Definition cached_property {S : Type}
    (dict : S -> gmap string PyVal) (set_dict : gmap string PyVal -> S -> S)
    (attrname : string) (func : M S PyVal) : M S PyVal :=
  fun self =>
    match dict self !! attrname with
    | Some val => (val, self)
    | None =>
        let '(val, self') := func self in
        (val, set_dict (<[attrname := val]> (dict self')) self')
    end.

(** The fields of an object, without its dictionary. *)
Definition grid_of (self : GridObj) : Grid := mkGrid (obj_cells self).

Definition state_of (self : GameStateObj) : GameState :=
  mkGameState (grid_of (obj_grid self)) (obj_starting_mark self).

(** A newly built object: no property has been read yet. *)
Definition fresh (s : GameState) : GameStateObj :=
  mkGameStateObj (mkGridObj (cells (grid s)) ∅) (starting_mark s) ∅.

(** *** [Grid] *)

Definition cached_x_count : M GridObj PyVal :=
  cached_property grid_dict set_grid_dict "x_count"
    (fun self => (PyInt (str_count "X" (obj_cells self)), self)).

Definition cached_o_count : M GridObj PyVal :=
  cached_property grid_dict set_grid_dict "o_count"
    (fun self => (PyInt (str_count "O" (obj_cells self)), self)).

Definition cached_empty_count : M GridObj PyVal :=
  cached_property grid_dict set_grid_dict "empty_count"
    (fun self => (PyInt (str_count " " (obj_cells self)), self)).

(** *** [GameState] *)

(** [self.grid.<property>] *)
Definition on_grid {A : Type} (m : M GridObj A) : M GameStateObj A :=
  fun self =>
    let '(a, g) := m (obj_grid self) in
    (a, mkGameStateObj g (obj_starting_mark self) (state_dict self)).

Definition get_starting_mark : M GameStateObj Mark :=
  fun self => (obj_starting_mark self, self).

Definition cached_curr_mark : M GameStateObj PyVal :=
  cached_property state_dict set_state_dict "curr_mark"
    (let! x := on_grid cached_x_count in
     let! o := on_grid cached_o_count in
     let! m := get_starting_mark in
     ret (PyMark (if py_eq x o then m else other m))).

Definition cached_game_not_started : M GameStateObj PyVal :=
  cached_property state_dict set_state_dict "game_not_started"
    (let! e := on_grid cached_empty_count in
     ret (PyBool (py_eq e (PyInt 9)))).

(** The body of [winner] reads fields only. *)
Definition cached_winner : M GameStateObj PyVal :=
  cached_property state_dict set_state_dict "winner"
    (fun self => (winner (state_of self), self)).

(** [and] does not evaluate its right operand when the left one is false. *)
Definition cached_tie : M GameStateObj PyVal :=
  cached_property state_dict set_state_dict "tie"
    (let! w := cached_winner in
     if is_None w
     then let! e := on_grid cached_empty_count in ret (PyBool (py_eq e (PyInt 0)))
     else ret (PyBool false)).

(** [or] answers its left operand when it is true, else its right one. *)
Definition cached_game_over : M GameStateObj PyVal :=
  cached_property state_dict set_state_dict "game_over"
    (let! w := cached_winner in
     if negb (is_None w) then ret (PyBool true) else cached_tie).

(** The five derived properties of a [GameState], as queries. *)
Inductive Query : Type :=
| QCurrMark | QGameNotStarted | QTie | QGameOver | QWinner.

Definition read (q : Query) : M GameStateObj PyVal :=
  match q with
  | QCurrMark => cached_curr_mark
  | QGameNotStarted => cached_game_not_started
  | QTie => cached_tie
  | QGameOver => cached_game_over
  | QWinner => cached_winner
  end.

(** What the undecorated body computes. *)
Definition plain (q : Query) (s : GameState) : PyVal :=
  match q with
  | QCurrMark => PyMark (curr_mark s)
  | QGameNotStarted => PyBool (game_not_started s)
  | QTie => PyBool (tie s)
  | QGameOver => PyBool (game_over s)
  | QWinner => winner s
  end.

(** A sequence of reads on one object. *)
Fixpoint reads (qs : list Query) : M GameStateObj (list PyVal) :=
  match qs with
  | [] => ret []
  | q :: qs' =>
      let! v := read q in
      let! vs := reads qs' in
      ret (v :: vs)
  end.

(** What each dictionary may hold: under a property's name, the value of
    its body. *)
Definition grid_entry (g : Grid) (name : string) : option PyVal :=
  if bool_decide (name = "x_count") then Some (PyInt (x_count g))
  else if bool_decide (name = "o_count") then Some (PyInt (o_count g))
  else if bool_decide (name = "empty_count")
       then Some (PyInt (empty_count g))
  else None.

(** The names that the body of [class GameState] binds to a
    [cached_property]. *)
Definition property_named (name : string) : option Query :=
  if bool_decide (name = "curr_mark") then Some QCurrMark
  else if bool_decide (name = "game_not_started") then Some QGameNotStarted
  else if bool_decide (name = "tie") then Some QTie
  else if bool_decide (name = "game_over") then Some QGameOver
  else if bool_decide (name = "winner") then Some QWinner
  else None.

Definition state_entry (s : GameState) (name : string) : option PyVal :=
  (fun q => plain q s) <$> property_named name.

Definition grid_coherent (self : GridObj) : Prop :=
  forall name val,
    grid_dict self !! name = Some val ->
    grid_entry (grid_of self) name = Some val.

Definition coherent (self : GameStateObj) : Prop :=
  grid_coherent (obj_grid self) /\
  forall name val,
    state_dict self !! name = Some val ->
    state_entry (state_of self) name = Some val.

(** *** Attribute lookup on a [GameState] object *)




(** Run on any object that satisfies [Inv] and has the fields [f], the
    computation [m] answers [a], leaves the fields as they are and keeps
    [Inv]. *)
Definition returns_at {S F A : Type} (fields : S -> F) (Inv : S -> Prop)
    (f : F) (m : M S A) (a : A) : Prop :=
  forall self,
    Inv self -> fields self = f ->
    (m self).1 = a /\ fields (m self).2 = f /\ Inv (m self).2.

End Memo.

(** ** Vocabulary of the specification *)

(** The three cell symbols: empty, Cross, Naught. *)
Definition is_symbol (c : ascii) : bool :=
  Ascii.eqb c " " || Ascii.eqb c "X" || Ascii.eqb c "O".

Fixpoint all_symbols (s : string) : bool :=
  match s with
  | EmptyString => true
  | String c s' => is_symbol c && all_symbols s'
  end.

(** A grid of exactly 9 cells, each one of the three symbols. *)
Definition well_formed (g : Grid) : Prop :=
  String.length (cells g) = 9%nat /\ all_symbols (cells g) = true.

(** The opposite mark, as the specification defines it. *)
Definition opposite (m : Mark) : Mark :=
  match m with
  | CROSS => NAUGHT
  | NAUGHT => CROSS
  end.

(** The 8 winning lines as triples of cell indices, in the order the
    specification lists them. *)
Definition LINES : list (list nat) :=
  [ [0; 1; 2]; [3; 4; 5]; [6; 7; 8];
    [0; 3; 6]; [1; 4; 7]; [2; 5; 8];
    [0; 4; 8]; [2; 4; 6] ]%nat.

(** All cells of [line] hold the symbol of [m]. *)
Definition occupies (m : Mark) (cells : string) (line : list nat) : bool :=
  forallb
    (fun i =>
       match String.get i cells with
       | Some c => String.eqb (String c EmptyString) (Mark_value m)
       | None => false
       end)
    line.

(** The scan the specification describes: lines outer, marks inner, the
    first fully occupied line decides; no result when there is none. *)
Definition spec_winner (cells : string) : option (Mark * list nat) :=
  for_in LINES (fun line =>
    for_in Mark_members (fun m =>
      if occupies m cells line then Some (m, line) else None)).

(** The states used as examples below. *)
Definition state_of_cells (cells : string) (start : Mark) : GameState :=
  mkGameState (mkGrid cells) start.

Definition empty_state : GameState :=
  state_of_cells (str_repeat " " 9) starting_mark_default.

(** A character that the pattern of [_post_init__] lets through: whitespace,
    ["X"] or ["O"]. *)
Definition is_cell_char (c : ascii) : bool :=
  re.is_space c || Ascii.eqb c "X" || Ascii.eqb c "O".

Fixpoint all_cell_chars (s : string) : bool :=
  match s with
  | EmptyString => true
  | String c s' => is_cell_char c && all_cell_chars s'
  end.

(** The cells a pattern marks with [?], as [winner] lists them. *)
Definition line_of (pattern : string) : list nat :=
  Z.to_nat <$> re.finditer_starts "?" pattern 0.

(** The second object has the fields of the first and at least its
    dictionary entries. *)
Definition grid_extends (self self' : Memo.GridObj) : Prop :=
  Memo.obj_cells self' = Memo.obj_cells self /\
  Memo.grid_dict self ⊆ Memo.grid_dict self'.

Definition extends (self self' : Memo.GameStateObj) : Prop :=
  grid_extends (Memo.obj_grid self) (Memo.obj_grid self') /\
  Memo.obj_starting_mark self' = Memo.obj_starting_mark self /\
  Memo.state_dict self ⊆ Memo.state_dict self'.

(** * Properties *)

(** ** Strings and counts *)

Lemma str_count_bounds (c : ascii) (s : string) :
  0 <= str_count c s <= Z.of_nat (String.length s).
Proof.
  induction s as [|a s IH]; simpl str_count; simpl String.length.
  - lia.
  - destruct (Ascii.eqb a c); lia.
Qed.

(** A count equal to the length means every character is the counted one. *)
Lemma str_count_full (c : ascii) (s : string) :
  str_count c s = Z.of_nat (String.length s) ->
  s = str_repeat (String c EmptyString) (String.length s).
Proof.
  induction s as [|a s IH]; simpl str_count; simpl String.length; intros H.
  - reflexivity.
  - pose proof (str_count_bounds c s) as B.
    destruct (Ascii.eqb_spec a c) as [-> | _].
    + simpl. f_equal. apply IH. lia.
    + lia.
Qed.

Lemma str_count_repeat (c : ascii) (n : nat) :
  str_count c (str_repeat (String c EmptyString) n) = Z.of_nat n.
Proof.
  induction n as [|n IH].
  - reflexivity.
  - change (str_repeat (String c EmptyString) (S n))
      with (String c (str_repeat (String c EmptyString) n)).
    simpl str_count. rewrite Ascii.eqb_refl, IH. lia.
Qed.

Lemma is_symbol_cases (c : ascii) :
  is_symbol c = true -> c = " "%char \/ c = "X"%char \/ c = "O"%char.
Proof.
  unfold is_symbol. intros H.
  destruct (Ascii.eqb_spec c " "); [now left|].
  destruct (Ascii.eqb_spec c "X"); [now right; left|].
  destruct (Ascii.eqb_spec c "O"); [now right; right|].
  discriminate H.
Qed.

(** On a string of symbols the three counts add up to the length. *)
Lemma counts_partition (s : string) :
  all_symbols s = true ->
  str_count "X" s + str_count "O" s + str_count " " s
  = Z.of_nat (String.length s).
Proof.
  induction s as [|c s IH]; simpl all_symbols; intros H.
  - reflexivity.
  - apply andb_prop in H as [Hc Hs]. specialize (IH Hs).
    simpl str_count. simpl String.length.
    destruct (is_symbol_cases c Hc) as [-> | [-> | ->]]; simpl; lia.
Qed.

(** C10: on a grid of 9 cells, each empty, Cross or Naught, the three
    counts [x_count], [o_count] and [empty_count] add up to 9. *)
Theorem counts_sum_to_board_size (g : Grid) :
  well_formed g -> x_count g + o_count g + empty_count g = 9.
Proof.
  intros [Hlen Hsym]. unfold x_count, o_count, empty_count.
  rewrite (counts_partition _ Hsym), Hlen. reflexivity.
Qed.

Lemma counts_sum_to_board_size_witness :
  well_formed (mkGrid "XO X O   ") /\
  x_count (mkGrid "XO X O   ") + o_count (mkGrid "XO X O   ")
  + empty_count (mkGrid "XO X O   ") = 9.
Proof.
  assert (W : well_formed (mkGrid "XO X O   ")) by (split; reflexivity).
  split; [exact W | exact (counts_sum_to_board_size _ W)].
Defined.

(** ** [Mark.other] *)

(** No member is the text ["Mark.NAUGHT"], so the [else] branch is always
    taken. *)
Lemma other_constant (m : Mark) : other m = NAUGHT.
Proof. destruct m; reflexivity. Qed.

(** C3: the specification wants [other(Naught) = Cross]; the code answers
    [NAUGHT] for [NAUGHT] (and for [CROSS]), which is not the opposite
    mark. *)
Theorem other_NAUGHT_is_NAUGHT :
  other NAUGHT = NAUGHT /\ other NAUGHT <> opposite NAUGHT /\
  other CROSS = opposite CROSS.
Proof. repeat split. discriminate. Qed.

(** ** [Grid] construction *)

(** The class has no method named [__post_init__], so the generated
    [__init__] calls nothing after storing the field. *)
Lemma Grid_new_total (cells : string) : Grid_new cells = inr (mkGrid cells).
Proof. reflexivity. Qed.

(** The check of [_post_init__], had it been called, accepts every
    well-formed grid... *)
Lemma post_init_accepts (g : Grid) : well_formed g -> _post_init__ g = inr tt.
Proof.
  destruct g as [s]. intros [Hlen Hsym]. simpl in Hlen, Hsym.
  do 10 (destruct s as [|? s]; try discriminate Hlen).
  simpl in Hsym.
  repeat match goal with
         | H : _ && _ = true |- _ => apply andb_prop in H as [? H]
         end.
  repeat match goal with
         | H : is_symbol _ = true |- _ =>
             apply is_symbol_cases in H as [-> | [-> | ->]]
         end; reflexivity.
Qed.

(** ... and also some strings that are not: ten characters ending in a
    newline, or a tab for a cell. *)
Lemma post_init_accepts_more :
  _post_init__ (mkGrid ("XOXOXOXOX" +:+ String re.LF EmptyString)) = inr tt /\
  _post_init__ (mkGrid (String (ascii_of_nat 9) "OXOXOXOX")) = inr tt.
Proof. split; reflexivity. Qed.

(** C4: the specification wants construction to fail on an input whose
    length is not 9; [Grid("XX")] is built without error, although the
    check written in [_post_init__] rejects that value. *)
Theorem Grid_new_accepts_short_input :
  Grid_new "XX" = inr (mkGrid "XX") /\
  _post_init__ (mkGrid "XX")
  = inl (ValueError "Must contain 9 cells of: X, O or space") /\
  Grid_methods !! "__post_init__" = None.
Proof. repeat split. Qed.

(** ** [GameState.winner] *)

(** The loops end in their first iteration: only the top row is tried, and
    only for [CROSS]. *)
Lemma winner_first_iteration (s : GameState) :
  winner s
  = if re.match_ (re.compile "XXX......") (cells (grid s))
    then PyList [0; 1; 2]
    else PyList [].
Proof.
  unfold winner, WINNING_PATTERNS, Mark_members. cbn [for_in].
  change (str_replace "?" (Mark_value CROSS) "???......") with "XXX......".
  destruct (re.match_ (re.compile "XXX......") (cells (grid s))); reflexivity.
Qed.

Lemma winner_is_a_list (s : GameState) :
  winner s = PyList [0; 1; 2] \/ winner s = PyList [].
Proof.
  rewrite winner_first_iteration.
  destruct (re.match_ _ _); [now left | now right].
Qed.

Lemma winner_is_not_None (s : GameState) : is_None (winner s) = false.
Proof. destruct (winner_is_a_list s) as [-> | ->]; reflexivity. Qed.

Lemma winner_is_no_Mark (s : GameState) (m : Mark) : winner s <> PyMark m.
Proof. destruct (winner_is_a_list s) as [-> | ->]; discriminate. Qed.

(** Since [winner] is never [None], no state is a tie and every state is
    over. *)
Lemma tie_always_false (s : GameState) : tie s = false.
Proof. unfold tie. now rewrite winner_is_not_None. Qed.

Lemma game_over_always_true (s : GameState) : game_over s = true.
Proof. unfold game_over. now rewrite winner_is_not_None. Qed.

(** C1: the specification wants the mark that occupies a line, with the
    line's cells.  With Cross on the middle row the described scan finds
    (Cross, [3,4,5]) but the code answers the empty list; with Cross on the
    top row the code answers the list [0,1,2], which is not a mark. *)
Theorem winner_misses_middle_row :
  spec_winner "   XXX   " = Some (CROSS, [3; 4; 5]%nat) /\
  winner (state_of_cells "   XXX   " CROSS) = PyList [] /\
  spec_winner "XXX......" = Some (CROSS, [0; 1; 2]%nat) /\
  winner (state_of_cells "XXX......" CROSS) = PyList [0; 1; 2] /\
  winner (state_of_cells "XXX......" CROSS) <> PyMark CROSS.
Proof. repeat split. discriminate. Qed.

(** ** [GameState.tie] and [GameState.game_over] *)

(** C5, as the claim states it: for ["XOXOXOXOX"] the winner is none, [tie]
    is true and [game_over] is true.  That does not hold. *)
Lemma tie_claim_fails_on_XOXOXOXOX :
  ~ (winner (state_of_cells "XOXOXOXOX" CROSS) = PyNone /\
     tie (state_of_cells "XOXOXOXOX" CROSS) = true /\
     game_over (state_of_cells "XOXOXOXOX" CROSS) = true).
Proof. intros (_ & H & _). discriminate H. Qed.

(** C5, amended: [tie] is true exactly when [winner] is [None] and no cell
    is empty; [game_over] is true exactly when [winner] is not [None] or
    [tie] is true; and for ["XOXOXOXOX"], where Cross holds the diagonal
    0, 4, 8, [tie] is false and [game_over] is true. *)
Theorem tie_and_game_over_defined :
  (forall s : GameState,
      (tie s = true <-> winner s = PyNone /\ empty_count (grid s) = 0) /\
      (game_over s = true <-> winner s <> PyNone \/ tie s = true)) /\
  occupies CROSS "XOXOXOXOX" [0; 4; 8]%nat = true /\
  tie (state_of_cells "XOXOXOXOX" CROSS) = false /\
  game_over (state_of_cells "XOXOXOXOX" CROSS) = true.
Proof.
  split; [|repeat split].
  intros s. unfold game_over, tie. split.
  - rewrite andb_true_iff, Z.eqb_eq.
    destruct (winner s); simpl; intuition congruence.
  - rewrite orb_true_iff, andb_true_iff, negb_true_iff, Z.eqb_eq.
    destruct (winner s); simpl; intuition congruence.
Qed.

(** ** [GameState.game_not_started] *)

(** For a grid of 9 cells, [game_not_started] holds exactly when all of them
    are empty. *)
Lemma game_not_started_iff (s : GameState) :
  String.length (cells (grid s)) = 9%nat ->
  (game_not_started s = true <-> cells (grid s) = str_repeat " " 9).
Proof.
  intros Hlen. unfold game_not_started, empty_count. rewrite Z.eqb_eq. split.
  - intros H. rewrite <- Hlen. apply str_count_full. rewrite Hlen. exact H.
  - intros ->. exact (str_count_repeat " " 9).
Qed.

(** C6: the specification wants [game_over] false on the empty grid with
    the default starting mark; the code answers [game_not_started] true and
    [curr_mark] Cross there, but [game_over] true. *)
Theorem empty_grid_is_game_over :
  Grid_default = inr (grid empty_state) /\
  game_not_started empty_state = true /\
  curr_mark empty_state = CROSS /\
  game_over empty_state = true.
Proof. repeat split. Qed.

(** ** [GameState.curr_mark] *)

(** With Cross starting, the turn is as the specification says. *)
Lemma curr_mark_CROSS_start (g : Grid) :
  curr_mark (mkGameState g CROSS)
  = if x_count g =? o_count g then CROSS else opposite CROSS.
Proof. reflexivity. Qed.

(** With Naught starting, the turn is Naught whatever the counts. *)
Lemma curr_mark_NAUGHT_start (g : Grid) :
  curr_mark (mkGameState g NAUGHT) = NAUGHT.
Proof. unfold curr_mark. simpl. now destruct (_ =? _). Qed.

(** C7: the specification wants the other mark of [starting_mark] when the
    counts differ, for both starting marks; with Naught starting and one
    Naught on the grid the counts differ and the code answers Naught, not
    Cross. *)
Theorem curr_mark_stuck_on_NAUGHT :
  x_count (mkGrid "O        ") <> o_count (mkGrid "O        ") /\
  curr_mark (state_of_cells "O        " NAUGHT) = NAUGHT /\
  curr_mark (state_of_cells "O        " NAUGHT) <> opposite NAUGHT.
Proof. repeat split; discriminate. Qed.

(** ** [Move] *)

(** [frozen] is a parameter of [dataclass]: [Grid] is a frozen dataclass. *)
Lemma Grid_is_frozen :
  exists params, Grid_decorator = inr params /\ params !! "frozen" = Some true.
Proof. eexists. split; reflexivity. Qed.

(** C9: the specification wants [Move] to be an immutable record with
    structural equality; the decorator call of its class statement,
    [dataclass(Fronzen=True)], raises [TypeError], so the class is never
    created. *)
Theorem Move_decorator_raises :
  Move_decorator
  = inl (TypeError "dataclass() got an unexpected keyword argument 'Fronzen'")
  /\ dataclass_defaults !! "Fronzen" = None
  /\ dataclass_defaults !! "frozen" = Some false.
Proof.
  split; [reflexivity|].
  split; [apply not_elem_of_list_to_map_1|]; vm_compute; [|reflexivity].
  intros H. repeat (apply elem_of_cons in H as [H|H]; [discriminate H|]).
  inversion H.
Qed.

(** ** Memoisation *)

Section ReturnsAt.
Import Memo.
Context {S F : Type} (fields : S -> F) (Inv : S -> Prop).

Lemma returns_ret {A : Type} (f : F) (a : A) :
  returns_at fields Inv f (ret a) a.
Proof. intros self HI Hf. simpl. auto. Qed.

Lemma returns_bind {A B : Type} (f : F) (m : M S A) (k : A -> M S B)
    (a : A) (b : B) :
  returns_at fields Inv f m a ->
  returns_at fields Inv f (k a) b ->
  returns_at fields Inv f (bind m k) b.
Proof.
  intros Hm Hk self HI Hf. unfold bind.
  destruct (Hm self HI Hf) as (Ha & Hf' & HI').
  destruct (m self) as [a' self']. simpl in Ha, Hf', HI'. subst a'.
  exact (Hk self' HI' Hf').
Qed.

Variables (dict : S -> gmap string PyVal)
          (set_dict : gmap string PyVal -> S -> S)
          (entry : F -> string -> option PyVal).

(** What is stored is what the table says. *)
Hypothesis Inv_lookup :
  forall self name val,
    Inv self -> dict self !! name = Some val ->
    entry (fields self) name = Some val.

(** Storing what the table says keeps the invariant and the fields. *)
Hypothesis Inv_store :
  forall self name val,
    Inv self -> entry (fields self) name = Some val ->
    Inv (set_dict (<[name := val]> (dict self)) self)
    /\ fields (set_dict (<[name := val]> (dict self)) self) = fields self.

Lemma returns_cached_property (f : F) (name : string) (func : M S PyVal)
    (val : PyVal) :
  entry f name = Some val ->
  returns_at fields Inv f func val ->
  returns_at fields Inv f (cached_property dict set_dict name func) val.
Proof.
  intros He Hfunc self HI Hf. unfold cached_property.
  destruct (dict self !! name) as [old|] eqn:Hd.
  - simpl. pose proof (Inv_lookup _ _ _ HI Hd) as Hold.
    rewrite Hf, He in Hold. injection Hold as ->. auto.
  - destruct (Hfunc self HI Hf) as (Hv & Hf' & HI').
    destruct (func self) as [v self']. simpl in Hv, Hf', HI'. subst v.
    rewrite <- Hf' in He.
    destruct (Inv_store _ _ _ HI' He) as [HI'' Hf''].
    simpl. rewrite Hf''. auto.
Qed.

End ReturnsAt.

Section MemoisedReads.
Import Memo.

Lemma grid_coherent_store (self : GridObj) (name : string) (val : PyVal) :
  grid_coherent self ->
  grid_entry (grid_of self) name = Some val ->
  grid_coherent (set_grid_dict (<[name := val]> (grid_dict self)) self)
  /\ grid_of (set_grid_dict (<[name := val]> (grid_dict self)) self)
     = grid_of self.
Proof.
  intros HI He. split; [|reflexivity].
  intros name' val'. simpl. rewrite lookup_insert.
  case_decide as Hn.
  - subst name'. intros [= <-]. exact He.
  - apply HI.
Qed.

Lemma coherent_store (self : GameStateObj) (name : string) (val : PyVal) :
  coherent self ->
  state_entry (state_of self) name = Some val ->
  coherent (set_state_dict (<[name := val]> (state_dict self)) self)
  /\ state_of (set_state_dict (<[name := val]> (state_dict self)) self)
     = state_of self.
Proof.
  intros [Hg HI] He. split; [split|reflexivity].
  - exact Hg.
  - intros name' val'. simpl. rewrite lookup_insert.
    case_decide as Hn.
    + subst name'. intros [= <-]. exact He.
    + apply HI.
Qed.

Lemma fresh_coherent (s : GameState) : coherent (fresh s).
Proof.
  split; intros name val; simpl; rewrite lookup_empty; discriminate.
Qed.

Lemma state_of_fresh (s : GameState) : state_of (fresh s) = s.
Proof. destruct s as [[c] m]. reflexivity. Qed.

Local Abbreviation grid_returns :=
  (returns_at (S := GridObj) grid_of grid_coherent).
Local Abbreviation state_returns :=
  (returns_at (S := GameStateObj) state_of coherent).

Lemma grid_property_returns (g : Grid) (name : string) (sub : ascii) :
  grid_entry g name = Some (PyInt (str_count sub (cells g))) ->
  grid_returns g
    (cached_property grid_dict set_grid_dict name
       (fun self => (PyInt (str_count sub (obj_cells self)), self)))
    (PyInt (str_count sub (cells g))).
Proof.
  intros He.
  apply (returns_cached_property grid_of grid_coherent grid_dict
           set_grid_dict grid_entry).
  - intros self n v HI Hd. exact (HI n v Hd).
  - exact grid_coherent_store.
  - exact He.
  - intros self HI Hf. simpl. subst g. auto.
Qed.

Lemma x_count_returns (g : Grid) :
  grid_returns g cached_x_count (PyInt (x_count g)).
Proof. now apply grid_property_returns. Qed.

Lemma o_count_returns (g : Grid) :
  grid_returns g cached_o_count (PyInt (o_count g)).
Proof. now apply grid_property_returns. Qed.

Lemma empty_count_returns (g : Grid) :
  grid_returns g cached_empty_count (PyInt (empty_count g)).
Proof. now apply grid_property_returns. Qed.

(** A read through [self.grid] is a read on the state. *)
Lemma on_grid_returns {A : Type} (s : GameState) (m : M GridObj A) (a : A) :
  grid_returns (grid s) m a -> state_returns s (on_grid m) a.
Proof.
  intros Hm self [Hg HI] Hf. unfold on_grid.
  assert (Hgf : grid_of (obj_grid self) = grid s) by now subst s.
  destruct (Hm (obj_grid self) Hg Hgf) as (Ha & Hf' & Hg').
  destruct (m (obj_grid self)) as [a' g']. simpl in Ha, Hf', Hg' |- *.
  subst a'. repeat split.
  - subst s. unfold state_of. simpl. now rewrite Hf'.
  - exact Hg'.
  - intros n v Hd. simpl in Hd.
    replace (state_of _) with (state_of self);
      [exact (HI n v Hd)|]. unfold state_of. simpl. now rewrite Hf', Hgf, <- Hf.
Qed.

Lemma state_property_returns (s : GameState) (name : string)
    (func : M GameStateObj PyVal) (val : PyVal) :
  state_entry s name = Some val ->
  state_returns s func val ->
  state_returns s (cached_property state_dict set_state_dict name func) val.
Proof.
  apply (returns_cached_property state_of coherent state_dict
           set_state_dict state_entry).
  - intros self n v [_ HI] Hd. exact (HI n v Hd).
  - exact coherent_store.
Qed.

Lemma winner_returns (s : GameState) :
  state_returns s cached_winner (winner s).
Proof.
  apply state_property_returns; [reflexivity|].
  intros self HI Hf. simpl. subst s. auto.
Qed.

Lemma curr_mark_returns (s : GameState) :
  state_returns s cached_curr_mark (PyMark (curr_mark s)).
Proof.
  apply state_property_returns; [reflexivity|].
  eapply returns_bind; [apply on_grid_returns, x_count_returns|].
  eapply returns_bind; [apply on_grid_returns, o_count_returns|].
  eapply returns_bind with (a := starting_mark s).
  - intros self HI Hf. simpl. subst s. auto.
  - apply returns_ret.
Qed.

Lemma game_not_started_returns (s : GameState) :
  state_returns s cached_game_not_started (PyBool (game_not_started s)).
Proof.
  apply state_property_returns; [reflexivity|].
  eapply returns_bind; [apply on_grid_returns, empty_count_returns|].
  apply returns_ret.
Qed.

Lemma tie_returns (s : GameState) :
  state_returns s cached_tie (PyBool (tie s)).
Proof.
  apply state_property_returns; [reflexivity|].
  eapply returns_bind; [apply winner_returns|].
  unfold tie. destruct (is_None (winner s)).
  - eapply returns_bind; [apply on_grid_returns, empty_count_returns|].
    apply returns_ret.
  - apply returns_ret.
Qed.

Lemma game_over_returns (s : GameState) :
  state_returns s cached_game_over (PyBool (game_over s)).
Proof.
  apply state_property_returns; [reflexivity|].
  eapply returns_bind; [apply winner_returns|].
  unfold game_over. destruct (is_None (winner s)) eqn:Hw; simpl.
  - replace (tie s) with (is_None (winner s) && (empty_count (grid s) =? 0))
      by reflexivity.
    pose proof (tie_returns s) as Ht. unfold tie in Ht. exact Ht.
  - apply returns_ret.
Qed.

Lemma read_returns (q : Query) (s : GameState) :
  state_returns s (read q) (plain q s).
Proof.
  destruct q; simpl.
  - apply curr_mark_returns.
  - apply game_not_started_returns.
  - apply tie_returns.
  - apply game_over_returns.
  - apply winner_returns.
Qed.

Lemma reads_returns (qs : list Query) (s : GameState) :
  state_returns s (reads qs) ((fun q => plain q s) <$> qs).
Proof.
  induction qs as [|q qs IH]; simpl.
  - apply returns_ret.
  - eapply returns_bind; [apply read_returns|].
    eapply returns_bind; [apply IH|]. apply returns_ret.
Qed.

(** Whatever the dictionary held before, a second read of [winner] finds
    what the first one answered. *)
Lemma winner_read_twice (self : GameStateObj) :
  (cached_winner (cached_winner self).2).1 = (cached_winner self).1.
Proof.
  unfold cached_winner, cached_property.
  destruct (state_dict self !! "winner") as [old|] eqn:Hd; simpl.
  - now rewrite Hd.
  - now rewrite lookup_insert_eq.
Qed.

End MemoisedReads.

(** C8: reading [winner] twice on the same [GameState] object gives the same
    result both times; and on an object built from [s], after any sequence
    of reads of the derived properties, each property reads as the value its
    undecorated body computes from [s]. *)
Theorem winner_twice_identical :
  (forall self : Memo.GameStateObj,
      (Memo.cached_winner (Memo.cached_winner self).2).1
      = (Memo.cached_winner self).1) /\
  (forall (s : GameState) (history : list Memo.Query) (q : Memo.Query),
      (Memo.reads history (Memo.fresh s)).1
      = (fun q' => Memo.plain q' s) <$> history /\
      (Memo.read q (Memo.reads history (Memo.fresh s)).2).1 = Memo.plain q s).
Proof.
  split; [exact winner_read_twice|].
  intros s history q.
  destruct (reads_returns history s (Memo.fresh s) (fresh_coherent s)
              (state_of_fresh s)) as (Hv & Hf & HI).
  split; [exact Hv|].
  exact (proj1 (read_returns q s _ HI Hf)).
Qed.

(** ** Attribute lookup: what a [GameState] provides *)

Section AttributeLookup.
Import Memo.





End AttributeLookup.



(** * Further properties of the code *)

(** ** The check of [_post_init__] *)
Lemma eat_Some (a : re.atom) (n : nat) (s t : string) :
  re.eat a n s = Some t <->
  exists body, s = body +:+ t /\ String.length body = n /\
               forallb (re.atom_matches a) (list_ascii_of_string body) = true.
Proof.
  revert s. induction n as [|n IH]; intros s; simpl.
  - split.
    + intros [= ->]. exists EmptyString. auto.
    + intros (body & -> & Hl & _). destruct body; [reflexivity | discriminate Hl].
  - destruct s as [|c s].
    + split; [discriminate|]. intros (body & Hs & Hl & _).
      destruct body; discriminate.
    + destruct (re.atom_matches a c) eqn:Hc.
      * rewrite IH. split.
        -- intros (body & -> & Hl & Hb). exists (String c body). simpl.
           rewrite Hc, Hb. auto.
        -- intros (body & Hs & Hl & Hb). destruct body as [|c' body]; [discriminate Hl|].
           simpl in Hs, Hl, Hb. injection Hs as <- ->.
           apply andb_prop in Hb as [_ Hb]. exists body. auto.
      * split; [discriminate|]. intros (body & Hs & Hl & Hb).
        destruct body as [|c' body]; [discriminate Hl|].
        simpl in Hs, Hb. injection Hs as <- ->. rewrite Hc in Hb. discriminate Hb.
Qed.

Lemma cell_class_forallb (body : string) :
  forallb (re.atom_matches
             (re.OneOf [re.SetSpace; re.SetChar "X"; re.SetChar "O"]))
    (list_ascii_of_string body)
  = all_cell_chars body.
Proof.
  induction body as [|c body IH]; [reflexivity|].
  simpl. rewrite IH. unfold is_cell_char.
  now rewrite orb_false_r, orb_assoc.
Qed.

Lemma at_end_iff (t : string) :
  re.at_end t = true <-> t = EmptyString \/ t = String re.LF EmptyString.
Proof.
  destruct t as [|c [|d t]]; simpl.
  - tauto.
  - destruct (Ascii.eqb_spec c re.LF) as [-> | Hne].
    + tauto.
    + split; [discriminate|]. intros [H|H]; [discriminate H|].
      injection H as ->. now destruct Hne.
  - split; [discriminate|]. intros [H|H]; discriminate H.
Qed.

Lemma append_empty_r (s : string) : s +:+ EmptyString = s.
Proof.
  induction s as [|c s IH]; [reflexivity|].
  change (String c (s +:+ EmptyString) = String c s). now rewrite IH.
Qed.

Lemma length_append (s t : string) :
  String.length (s +:+ t) = (String.length s + String.length t)%nat.
Proof.
  induction s as [|c s IH]; [reflexivity|].
  change (S (String.length (s +:+ t))
          = S (String.length s + String.length t)). now rewrite IH.
Qed.

(** X1: [_post_init__] returns without raising exactly when the cells are
    nine characters, each a whitespace character, [X] or [O], optionally
    followed by one newline. *)
Theorem post_init_accepts_iff (g : Grid) :
  _post_init__ g = inr tt <->
  exists body,
    String.length body = 9%nat /\ all_cell_chars body = true /\
    (cells g = body \/ cells g = body +:+ String re.LF EmptyString).
Proof.
  unfold _post_init__, re.match_, cells_re. cbn [re.run].
  destruct (re.eat _ 9 (cells g)) as [t|] eqn:He.
  - apply eat_Some in He as (body & Hs & Hl & Hb).
    rewrite cell_class_forallb in Hb. rewrite andb_true_r.
    destruct (re.at_end t) eqn:Ha; simpl.
    + split; [intros _|reflexivity]. exists body. repeat split; try assumption.
      apply at_end_iff in Ha as [-> | ->]; [left|right]; [|exact Hs].
      now rewrite Hs, append_empty_r.
    + split; [discriminate|]. intros (body' & Hl' & Hb' & Hc).
      assert (Ht : re.at_end t = true); [|congruence].
      apply at_end_iff.
      assert (Hsplit : forall a b a' b', String.length a = String.length a' ->
                 a +:+ b = a' +:+ b' -> b = b').
      { clear. induction a as [|c a IH]; intros b [|c' a'] b' Hlen Heq;
          simpl in *; try discriminate; [exact Heq|].
        injection Heq as _ Heq. injection Hlen as Hlen. eauto. }
      destruct Hc as [Hc | Hc]; rewrite Hs in Hc.
      * left. apply (Hsplit body t body' EmptyString); [congruence|].
        now rewrite append_empty_r.
      * right. apply (Hsplit body t body' _); [congruence | exact Hc].
  - simpl. split; [discriminate|]. intros (body & Hl & Hb & Hc).
    assert (Some_t : exists t, re.eat (re.OneOf [re.SetSpace; re.SetChar "X"; re.SetChar "O"]) 9 (cells g) = Some t).
    { destruct Hc as [Hc | Hc].
      - exists EmptyString. apply eat_Some. exists body.
        rewrite append_empty_r, cell_class_forallb. auto.
      - exists (String re.LF EmptyString). apply eat_Some. exists body.
        rewrite cell_class_forallb. auto. }
    destruct Some_t as [t Ht]. rewrite Ht in He. discriminate He.
Qed.

(** X2: [_post_init__] raises [ValueError] on every string shorter than 9
    or longer than 10 characters. *)
Theorem post_init_rejects_by_length (g : Grid) :
  (String.length (cells g) < 9)%nat \/ (10 < String.length (cells g))%nat ->
  _post_init__ g = inl (ValueError "Must contain 9 cells of: X, O or space").
Proof.
  intros Hlen.
  destruct (_post_init__ g) as [e|[]] eqn:Hp.
  - unfold _post_init__ in Hp. destruct (negb _); [|discriminate Hp].
    symmetry. exact Hp.
  - apply post_init_accepts_iff in Hp as (body & Hl & _ & [Hc | Hc]);
      rewrite Hc in Hlen; [|rewrite length_append in Hlen; simpl in Hlen]; lia.
Qed.

Lemma post_init_rejects_by_length_witness :
  ((String.length (cells (mkGrid "XOX")) < 9)%nat \/
   (10 < String.length (cells (mkGrid "XOX")))%nat) /\
  _post_init__ (mkGrid "XOX")
  = inl (ValueError "Must contain 9 cells of: X, O or space").
Proof.
  assert (H : (String.length (cells (mkGrid "XOX")) < 9)%nat \/
              (10 < String.length (cells (mkGrid "XOX")))%nat)
    by (left; simpl; lia).
  split; [exact H | exact (post_init_rejects_by_length _ H)].
Defined.

(** ** Patterns made of literals and [.] *)
Lemma run_compile_nil (b : bool) (s : string) :
  re.run (re.compile EmptyString) b s = true.
Proof. reflexivity. Qed.

Lemma run_compile_short (a : ascii) (p : string) (b : bool) :
  re.run (re.compile (String a p)) b EmptyString = false.
Proof. reflexivity. Qed.

Lemma run_compile_dot (p : string) (b : bool) (c : ascii) (s : string) :
  re.run (re.compile (String "." p)) b (String c s)
  = negb (Ascii.eqb c re.LF) && re.run (re.compile p) false s.
Proof.
  change (re.compile (String "." p)) with (re.One re.Any :: re.compile p).
  cbn [re.run re.eat re.atom_matches].
  now destruct (negb (Ascii.eqb c re.LF)).
Qed.

Lemma run_compile_lit (a : ascii) (p : string) (b : bool) (c : ascii)
    (s : string) :
  Ascii.eqb a "." = false ->
  re.run (re.compile (String a p)) b (String c s)
  = Ascii.eqb c a && re.run (re.compile p) false s.
Proof.
  intros Ha.
  replace (re.compile (String a p)) with (re.One (re.Lit a) :: re.compile p)
    by (unfold re.compile; simpl; now rewrite Ha).
  cbn [re.run re.eat re.atom_matches].
  now destruct (Ascii.eqb c a).
Qed.

Ltac run_compiled :=
  unfold re.match_;
  rewrite ?run_compile_dot, ?run_compile_short, ?run_compile_nil;
  repeat (rewrite run_compile_lit by reflexivity;
          rewrite ?run_compile_dot, ?run_compile_short, ?run_compile_nil).

Ltac run_compiled_in H :=
  unfold re.match_ in H;
  rewrite ?run_compile_dot, ?run_compile_short, ?run_compile_nil in H;
  repeat (rewrite run_compile_lit in H by reflexivity;
          rewrite ?run_compile_dot, ?run_compile_short, ?run_compile_nil in H).

(** ** What [winner] answers *)
Lemma top_row_match_iff (c : string) :
  re.match_ (re.compile "XXX......") c = true <->
  exists rest tail,
    c = "XXX" +:+ rest +:+ tail /\ String.length rest = 6%nat /\
    str_count re.LF rest = 0.
Proof.
  split.
  - intros H.
    destruct c as [|c0 [|c1 [|c2 [|r0 [|r1 [|r2 [|r3 [|r4 [|r5 tail]]]]]]]]];
      run_compiled_in H;
      repeat (apply andb_prop in H as [? H]); try discriminate H.
    repeat match goal with
           | E : Ascii.eqb _ _ = true |- _ => apply Ascii.eqb_eq in E; subst
           | E : negb _ = true |- _ => apply negb_true_iff in E
           end.
    exists (String r0 (String r1 (String r2 (String r3 (String r4
              (String r5 EmptyString)))))), tail.
    repeat split. simpl str_count.
    repeat match goal with E : Ascii.eqb _ _ = false |- _ => rewrite E; clear E end.
    reflexivity.
  - intros (rest & tail & -> & Hl & Hc).
    destruct rest as [|r0 [|r1 [|r2 [|r3 [|r4 [|r5 [|]]]]]]]; try discriminate Hl.
    simpl str_count in Hc.
    change ("XXX" +:+ String r0 (String r1 (String r2 (String r3 (String r4
              (String r5 EmptyString))))) +:+ tail)
      with (String "X" (String "X" (String "X" (String r0 (String r1 (String r2
              (String r3 (String r4 (String r5 tail))))))))).
    run_compiled.
    destruct (Ascii.eqb r0 re.LF), (Ascii.eqb r1 re.LF), (Ascii.eqb r2 re.LF),
      (Ascii.eqb r3 re.LF), (Ascii.eqb r4 re.LF), (Ascii.eqb r5 re.LF);
      try discriminate Hc; reflexivity.
Qed.

(** X3: [winner] answers the list [0, 1, 2] exactly when the cells start
    with [XXX] followed by at least six characters of which the first six
    are not newlines; in every other case it answers the empty list. *)
Theorem winner_top_row_iff (s : GameState) :
  (winner s = PyList [0; 1; 2] <->
   exists rest tail,
     cells (grid s) = "XXX" +:+ rest +:+ tail /\ String.length rest = 6%nat /\
     str_count re.LF rest = 0) /\
  (winner s = PyList [0; 1; 2] \/ winner s = PyList []).
Proof.
  split; [|exact (winner_is_a_list s)].
  rewrite <- top_row_match_iff, winner_first_iteration.
  destruct (re.match_ _ _); split; intros H; try reflexivity; discriminate H.
Qed.

(** X4: on every state [game_over] is true and [tie] is false, and [winner]
    is neither [None] nor a mark. *)
Theorem every_state_is_over (s : GameState) :
  game_over s = true /\ tie s = false /\
  winner s <> PyNone /\ forall m, winner s <> PyMark m.
Proof.
  repeat split.
  - apply game_over_always_true.
  - apply tie_always_false.
  - intros H. pose proof (winner_is_not_None s) as N. rewrite H in N.
    discriminate N.
  - intros m. apply winner_is_no_Mark.
Qed.

(** ** The test in the loops of [winner] *)
Lemma symbol_not_LF (c : ascii) :
  is_symbol c = true -> Ascii.eqb c re.LF = false.
Proof. intros H. apply is_symbol_cases in H as [-> | [-> | ->]]; reflexivity. Qed.

Ltac eval_pattern :=
  match goal with
  | |- context [str_replace ?a ?v ?p] =>
      let t := eval vm_compute in (str_replace a v p) in
      change (str_replace a v p) with t
  end.

Lemma pattern_test_line (g : Grid) (pattern : string) (m : Mark) :
  well_formed g -> In pattern WINNING_PATTERNS ->
  re.match_ (re.compile (str_replace "?" (Mark_value m) pattern)) (cells g)
  = occupies m (cells g) (line_of pattern)
  /\ In (line_of pattern) LINES.
Proof.
  destruct g as [s]. intros [Hlen Hsym] Hp. simpl in Hlen, Hsym |- *.
  do 10 (destruct s as [|? s]; try discriminate Hlen).
  simpl in Hsym.
  repeat match goal with
         | H : _ && _ = true |- _ => apply andb_prop in H as [? H]
         end.
  repeat match goal with
         | H : is_symbol _ = true |- _ => apply symbol_not_LF in H
         end.
  unfold WINNING_PATTERNS in Hp. simpl in Hp.
  repeat (destruct Hp as [<- | Hp]); [..|destruct Hp];
    (split; [|vm_compute; tauto]);
    destruct m; eval_pattern; run_compiled;
    match goal with
    | |- context [line_of ?p] =>
        let t := eval vm_compute in (line_of p) in change (line_of p) with t
    end;
    repeat match goal with H : Ascii.eqb _ re.LF = false |- _ =>
             rewrite ?H; clear H end;
    cbn;
    repeat match goal with
           | |- context [Ascii.eqb ?c ?d] => destruct (Ascii.eqb c d)
           end; reflexivity.
Qed.

(** X5: on a well-formed grid, the regular-expression test made in the
    loops of [winner] for a pattern and a mark holds exactly when the mark
    occupies the three cells where the pattern has [?], and those cells form
    one of the eight lines of the board. *)
Theorem pattern_test_is_line_test (g : Grid) (pattern : string) (m : Mark) :
  well_formed g -> In pattern WINNING_PATTERNS ->
  re.match_ (re.compile (str_replace "?" (Mark_value m) pattern)) (cells g)
  = occupies m (cells g) (line_of pattern)
  /\ In (line_of pattern) LINES.
Proof. apply pattern_test_line. Qed.

Lemma pattern_test_is_line_test_witness :
  well_formed (mkGrid "O XO XO  ") /\ In "?..?..?.." WINNING_PATTERNS /\
  (re.match_ (re.compile (str_replace "?" (Mark_value NAUGHT) "?..?..?.."))
     (cells (mkGrid "O XO XO  "))
   = occupies NAUGHT (cells (mkGrid "O XO XO  ")) (line_of "?..?..?..")
   /\ In (line_of "?..?..?..") LINES).
Proof.
  assert (W : well_formed (mkGrid "O XO XO  ")) by (split; reflexivity).
  assert (P : In "?..?..?.." WINNING_PATTERNS) by (simpl; tauto).
  split; [exact W|]. split; [exact P|].
  exact (pattern_test_is_line_test _ _ NAUGHT W P).
Defined.



(** ** Counts on arbitrary cells *)
Lemma counts_partition_iff (s : string) :
  str_count "X" s + str_count "O" s + str_count " " s
  <= Z.of_nat (String.length s)
  /\ (str_count "X" s + str_count "O" s + str_count " " s
      = Z.of_nat (String.length s) <-> all_symbols s = true).
Proof.
  induction s as [|c s [IHle IHeq]].
  - simpl. split; [lia|tauto].
  - pose proof (str_count_bounds "X" s). pose proof (str_count_bounds "O" s).
    pose proof (str_count_bounds " " s).
    simpl str_count. simpl String.length. simpl all_symbols.
    unfold is_symbol.
    rewrite andb_true_iff, <- IHeq.
    destruct (Ascii.eqb_spec c " ") as [-> | ?];
      [|destruct (Ascii.eqb_spec c "X") as [-> | ?];
        [|destruct (Ascii.eqb_spec c "O") as [-> | ?]]];
      simpl; split; try lia; split; try lia; try tauto;
      intros [? ?]; try discriminate; lia.
Qed.

(** X7: whatever the cells are, the three counts are non-negative and add
    up to at most the number of cells, with equality exactly when every
    cell is a space, [X] or [O]. *)
Theorem counts_bounded_by_length (g : Grid) :
  0 <= x_count g /\ 0 <= o_count g /\ 0 <= empty_count g /\
  x_count g + o_count g + empty_count g
  <= Z.of_nat (String.length (cells g)) /\
  (x_count g + o_count g + empty_count g = Z.of_nat (String.length (cells g))
   <-> all_symbols (cells g) = true).
Proof.
  unfold x_count, o_count, empty_count.
  pose proof (str_count_bounds "X" (cells g)).
  pose proof (str_count_bounds "O" (cells g)).
  pose proof (str_count_bounds " " (cells g)).
  destruct (counts_partition_iff (cells g)) as [Hle Heq].
  repeat split; try lia; apply Heq.
Qed.

(** ** Whose turn it is *)
(** X8: [curr_mark] is Cross exactly when Cross starts and the two counts
    are equal; it is Naught exactly when Naught starts or the counts
    differ. *)
Theorem curr_mark_CROSS_iff (s : GameState) :
  (curr_mark s = CROSS <->
   starting_mark s = CROSS /\ x_count (grid s) = o_count (grid s)) /\
  (curr_mark s = NAUGHT <->
   starting_mark s = NAUGHT \/ x_count (grid s) <> o_count (grid s)).
Proof.
  unfold curr_mark. rewrite other_constant.
  destruct (Z.eqb_spec (x_count (grid s)) (o_count (grid s))) as [E | N];
    destruct (starting_mark s); split; split;
    intuition (try discriminate; try congruence).
Qed.

Lemma game_not_started_iff_witness :
  String.length (cells (grid empty_state)) = 9%nat /\
  (game_not_started empty_state = true <->
   cells (grid empty_state) = str_repeat " " 9).
Proof.
  assert (L : String.length (cells (grid empty_state)) = 9%nat) by reflexivity.
  split; [exact L | exact (game_not_started_iff empty_state L)].
Defined.


(** ** Reading a property again *)
Section Rereads.
Import Memo.

Lemma cached_property_reread {S : Type} (dict : S -> gmap string PyVal)
    (set_dict : gmap string PyVal -> S -> S) (name : string)
    (func : M S PyVal) (self : S) :
  (forall d s, dict (set_dict d s) = d) ->
  cached_property dict set_dict name func
    (cached_property dict set_dict name func self).2
  = cached_property dict set_dict name func self.
Proof.
  intros Hget. unfold cached_property at 2 3.
  destruct (dict self !! name) as [old|] eqn:Hd.
  - simpl. unfold cached_property. now rewrite Hd.
  - destruct (func self) as [val self']. simpl.
    unfold cached_property. now rewrite Hget, lookup_insert_eq.
Qed.

(** X10: reading a derived property of a [GameState] a second time gives
    the same value and leaves the object, dictionaries included, exactly as
    the first read left it; this holds for any object. *)
Theorem read_again_changes_nothing (q : Query) (self : GameStateObj) :
  read q (read q self).2 = read q self.
Proof.
  destruct q; apply cached_property_reread; reflexivity.
Qed.

(** X11: the same for the three counts of a [Grid]. *)
Theorem grid_read_again_changes_nothing (self : GridObj) :
  cached_x_count (cached_x_count self).2 = cached_x_count self /\
  cached_o_count (cached_o_count self).2 = cached_o_count self /\
  cached_empty_count (cached_empty_count self).2 = cached_empty_count self.
Proof. repeat split; apply cached_property_reread; reflexivity. Qed.

(** X12: on a newly built state, reading [game_over] stores [winner] and
    [game_over] only: the body of [tie] is not run; reading [tie] stores
    [winner] and [tie] only; neither read counts the cells of the grid. *)
Theorem game_over_stores_winner_only (s : GameState) :
  state_dict (cached_game_over (fresh s)).2
  = <["game_over" := PyBool true]> (<["winner" := winner s]> ∅)
  /\ grid_dict (obj_grid (cached_game_over (fresh s)).2) = ∅
  /\ state_dict (cached_tie (fresh s)).2
     = <["tie" := PyBool false]> (<["winner" := winner s]> ∅)
  /\ grid_dict (obj_grid (cached_tie (fresh s)).2) = ∅.
Proof.
  pose proof (winner_is_not_None s) as N.
  destruct s as [[c] m].
  unfold cached_game_over, cached_tie, cached_property, bind, fresh,
    cached_winner, cached_property, state_of, grid_of in *.
  simpl in *. rewrite !lookup_empty. simpl. rewrite N. simpl.
  repeat split.
Qed.


End Rereads.

Section Growth.
Import Memo.

Lemma grid_extends_refl (self : GridObj) : grid_extends self self.
Proof. split; reflexivity. Qed.

Lemma extends_refl (self : GameStateObj) : extends self self.
Proof. split; [apply grid_extends_refl | split; reflexivity]. Qed.

Lemma extends_trans (a b c : GameStateObj) :
  extends a b -> extends b c -> extends a c.
Proof.
  intros ((Hc1 & Hg1) & Hm1 & Hd1) ((Hc2 & Hg2) & Hm2 & Hd2).
  repeat split; try congruence; etrans; eassumption.
Qed.

Lemma bind_extends {A B : Type} (m : M GameStateObj A)
    (k : A -> M GameStateObj B) :
  (forall self, extends self (m self).2) ->
  (forall a self, extends self (k a self).2) ->
  forall self, extends self (bind m k self).2.
Proof.
  intros Hm Hk self. unfold bind. specialize (Hm self).
  destruct (m self) as [a self']. simpl in Hm.
  eapply extends_trans; [exact Hm | apply Hk].
Qed.

Lemma grid_cached_extends (name : string) (sub : ascii) (self : GridObj) :
  grid_extends self
    (cached_property grid_dict set_grid_dict name
       (fun self => (PyInt (str_count sub (obj_cells self)), self)) self).2.
Proof.
  unfold cached_property. destruct (grid_dict self !! name) eqn:Hd; simpl.
  - apply grid_extends_refl.
  - split; [reflexivity|]. simpl. now apply insert_subseteq.
Qed.

Lemma on_grid_extends {A : Type} (m : M GridObj A) :
  (forall g, grid_extends g (m g).2) ->
  forall self, extends self (on_grid m self).2.
Proof.
  intros Hm self. unfold on_grid. specialize (Hm (obj_grid self)).
  destruct (m (obj_grid self)) as [a g]. simpl in *.
  split; [exact Hm | split; reflexivity].
Qed.

Lemma state_cached_extends (name : string) (func : M GameStateObj PyVal) :
  (forall self, extends self (func self).2) ->
  forall self,
    extends self (cached_property state_dict set_state_dict name func self).2.
Proof.
  intros Hf self. unfold cached_property.
  destruct (state_dict self !! name) eqn:Hd; simpl.
  - apply extends_refl.
  - specialize (Hf self). destruct (func self) as [val self'].
    simpl in *. destruct Hf as (Hg & Hm & Hs).
    split; [exact Hg | split; [exact Hm|]]. simpl.
    now apply insert_subseteq_r.
Qed.

Lemma winner_extends (self : GameStateObj) : extends self (cached_winner self).2.
Proof. apply state_cached_extends. intros s. apply extends_refl. Qed.

Lemma tie_extends (self : GameStateObj) : extends self (cached_tie self).2.
Proof.
  apply state_cached_extends. apply bind_extends; [apply winner_extends|].
  intros w s. destruct (is_None w).
  - apply bind_extends; [apply on_grid_extends, grid_cached_extends|].
    intros e s'. apply extends_refl.
  - apply extends_refl.
Qed.

(** X13: reading a derived property, on any object, leaves the cells and
    the starting mark as they were and only adds entries to the two
    dictionaries: no stored entry is removed or replaced. *)
Theorem read_only_adds_entries (q : Query) (self : GameStateObj) :
  obj_cells (obj_grid (read q self).2) = obj_cells (obj_grid self) /\
  obj_starting_mark (read q self).2 = obj_starting_mark self /\
  state_dict self ⊆ state_dict (read q self).2 /\
  grid_dict (obj_grid self) ⊆ grid_dict (obj_grid (read q self).2).
Proof.
  assert (H : extends self (read q self).2).
  { destruct q; simpl.
    - apply state_cached_extends.
      apply bind_extends; [apply on_grid_extends, grid_cached_extends|].
      intros x. apply bind_extends; [apply on_grid_extends, grid_cached_extends|].
      intros o. apply bind_extends; [intros s; apply extends_refl|].
      intros m s. apply extends_refl.
    - apply state_cached_extends.
      apply bind_extends; [apply on_grid_extends, grid_cached_extends|].
      intros e s. apply extends_refl.
    - apply tie_extends.
    - apply state_cached_extends. apply bind_extends; [apply winner_extends|].
      intros w s. destruct (negb (is_None w)); [apply extends_refl|].
      apply tie_extends.
    - apply winner_extends. }
  destruct H as ((Hc & Hg) & Hm & Hs). auto.
Qed.

End Growth.

(** ** Rearranged cells *)
Lemma str_count_of_list_perm (c : ascii) (l1 l2 : list ascii) :
  l1 ≡ₚ l2 ->
  str_count c (string_of_list_ascii l1) = str_count c (string_of_list_ascii l2).
Proof.
  induction 1 as [|a l1 l2 _ IH|a b l|l1 l2 l3 _ IH1 _ IH2]; simpl.
  - reflexivity.
  - now rewrite IH.
  - lia.
  - congruence.
Qed.

Lemma str_count_perm (c : ascii) (s t : string) :
  list_ascii_of_string s ≡ₚ list_ascii_of_string t ->
  str_count c s = str_count c t.
Proof.
  intros H. apply (str_count_of_list_perm c) in H.
  now rewrite !string_of_list_ascii_of_string in H.
Qed.

(** X14: [curr_mark] and [game_not_started] depend on the cells only up to
    rearrangement: two grids whose cells are permutations of each other
    give the same answers. *)
Theorem turn_ignores_positions (a b : string) (m : Mark) :
  list_ascii_of_string a ≡ₚ list_ascii_of_string b ->
  curr_mark (state_of_cells a m) = curr_mark (state_of_cells b m) /\
  game_not_started (state_of_cells a m) = game_not_started (state_of_cells b m).
Proof.
  intros H. unfold curr_mark, game_not_started, x_count, o_count, empty_count.
  simpl. now rewrite !(str_count_perm _ a b H).
Qed.

Lemma turn_ignores_positions_witness :
  list_ascii_of_string "XO       " ≡ₚ list_ascii_of_string "OX       " /\
  curr_mark (state_of_cells "XO       " CROSS)
  = curr_mark (state_of_cells "OX       " CROSS) /\
  game_not_started (state_of_cells "XO       " CROSS)
  = game_not_started (state_of_cells "OX       " CROSS).
Proof.
  assert (P : list_ascii_of_string "XO       " ≡ₚ list_ascii_of_string "OX       ")
    by (simpl; apply perm_swap).
  split; [exact P | exact (turn_ignores_positions _ _ CROSS P)].
Defined.
